(** * analyze_tips.py: average tip of smokers and non-smokers

    A shallow embedding of [src/analyze_tips.py]: the smoker-flag
    normalisation [_to_bool_smoker] and the aggregation routine
    [compare_avg_tip_by_smoker], on both of its input paths (a pandas
    DataFrame and an iterable of dict records).

    Modelling choices.
    - Python values that reach the routine are the inductive [pyval]; a
      value carries what the code asks of it: its [str()] text and its
      [float()] conversion.
    - Python strings are [string] (characters read as code points 0..255);
      [str.strip], [str.lower] and the grammar of [float(str)] are written
      out for that range.
    - Floats are IEEE doubles ([pyfloat]): a finite double kept as the
      rational it denotes, an infinity, or nan; [round_double] rounds a
      rational to the nearest double, ties to even.
    - The routine is given twice.  The exact model (top level) keeps the
      finite tips [float()] returns, as rationals, and reports the exact
      means, which [statistics.mean] computes before its final rounding;
      it serves the statements about keys, counts and the order of the
      records.  Module [Float64] is the routine on Python floats: nan and
      infinite tips, [statistics.mean] with its final rounding, and a float
      subtraction for the difference.
    - The optional scipy dependency is an argument [scipy]: [None] when
      [from scipy import stats] fails, [Some ttest_ind] otherwise, where
      [ttest_ind tips_smoker tips_non] is [None] when the call raises and
      [Some p] when it returns the p-value [p].  The type of p-values is a
      parameter. *)

From Stdlib Require Import List String Ascii ZArith QArith Qcanon Qround Qpower.
From Stdlib Require Import Permutation Lia.
Import ListNotations.
Open Scope string_scope.

(** ** Floats: IEEE doubles

    A Python float is a finite double, an infinity or nan.  A finite value
    is kept as the rational it denotes; the sign of a zero is not kept
    ([-0.0 == 0.0] in Python). *)

Inductive pyfloat : Type :=
| PFin (q : Qc)
| PInf (neg : bool)        (** [neg = true]: -inf *)
| PNaN.

Definition pow2Q (e : Z) : Q := Qpower (2 # 1)%Q e.

(** A double: [m * 2^e] with a 53-bit integer [m] and [-1074 <= e <= 971]. *)
Definition is_double (q : Q) : Prop :=
  exists m e, (Z.abs m < 2 ^ 53)%Z /\ (-1074 <= e <= 971)%Z
              /\ (q == inject_Z m * pow2Q e)%Q.

(** For [x > 0], the [E] with [2^E <= x < 2^(E+1)]. *)
Definition binade (x : Q) : Z :=
  let e0 := (Z.log2 (Qnum x) - Z.log2 (Zpos (Qden x)))%Z in
  if Qle_bool (pow2Q e0) x then e0 else (e0 - 1)%Z.

(** The exponent of the last mantissa bit of a double near [x > 0]:
    53 significant bits, and no bit below [2^-1074] (subnormals). *)
Definition scale (x : Q) : Z := Z.max (binade x - 52) (-1074).

(** Rounding to the nearest integer, ties to even. *)
Definition round_half_even (s : Q) : Z :=
  let q0 := Qfloor s in
  match Qcompare (s - inject_Z q0)%Q (1 # 2)%Q with
  | Lt => q0
  | Gt => (q0 + 1)%Z
  | Eq => if Z.even q0 then q0 else (q0 + 1)%Z
  end.

Definition round_pos (x : Q) : Q :=
  (inject_Z (round_half_even (x * pow2Q (- scale x))) * pow2Q (scale x))%Q.

(** The double nearest to a rational, ties to even, and an infinity when
    the rounded value reaches [2^1024]: the conversion of an exact value to
    a float done by [float(str)], [float(int)], [int / int] and
    [float(Fraction)], and the result of each float operation. *)
Definition round_double (x : Q) : pyfloat :=
  match Qnum x with
  | Z0 => PFin 0%Qc
  | Zpos _ =>
      let r := round_pos x in
      if Qle_bool (pow2Q 1024) r then PInf false else PFin (Q2Qc r)
  | Zneg _ =>
      let r := round_pos (- x)%Q in
      if Qle_bool (pow2Q 1024) r then PInf true else PFin (Q2Qc (- r)%Q)
  end.

(** A float as a double: the identity on doubles. *)
Definition to_double (f : pyfloat) : pyfloat :=
  match f with
  | PFin q => round_double (this q)
  | _ => f
  end.

(** [a + b] on floats. *)
Definition fadd (a b : pyfloat) : pyfloat :=
  match a, b with
  | PNaN, _ | _, PNaN => PNaN
  | PInf x, PInf y => if Bool.eqb x y then PInf x else PNaN
  | PInf x, _ => PInf x
  | _, PInf y => PInf y
  | PFin p, PFin q => round_double (this (p + q)%Qc)
  end.

Definition fneg (a : pyfloat) : pyfloat :=
  match a with
  | PFin q => PFin (- q)%Qc
  | PInf x => PInf (negb x)
  | PNaN => PNaN
  end.

(** [a - b] on floats. *)
Definition fsub (a b : pyfloat) : pyfloat := fadd a (fneg b).

(** [a / n] for a float [a] and a positive int [n]. *)
Definition fdiv_int (a : pyfloat) (n : nat) : pyfloat :=
  match a with
  | PFin q => round_double (this q / inject_Z (Z.of_nat n))%Q
  | _ => a
  end.

(** [a <= b] on floats: False as soon as one side is nan. *)
Definition flt_le (a b : pyfloat) : bool :=
  match a, b with
  | PNaN, _ | _, PNaN => false
  | PInf true, _ => true
  | _, PInf false => true
  | PInf false, _ => false
  | _, PInf true => false
  | PFin p, PFin q => Qle_bool (this p) (this q)
  end.

(** ** Python values *)

Inductive pyval : Type :=
| VNone
| VBool (b : bool)
| VInt (z : Z)
| VFloat (f : pyfloat) (text : string)     (** a float and its str() *)
| VStr (s : string)
| VObj (text : string) (as_float : option pyfloat).
  (** any other object: its str() and the float its [__float__] returns,
      [None] when float() raises *)

(** ** String helpers: [str.strip], [str.lower], [str(int)] *)

(** [str.isspace] on code points 0..255. *)
Definition is_space (c : ascii) : bool :=
  let n := nat_of_ascii c in
  ((9 <=? n) && (n <=? 13))%nat || ((28 <=? n) && (n <=? 32))%nat
  || (n =? 133)%nat || (n =? 160)%nat.

Fixpoint drop_space (l : list ascii) : list ascii :=
  match l with
  | [] => []
  | c :: r => if is_space c then drop_space r else l
  end.

(** [str.strip()] with no argument. *)
Definition strip (s : string) : string :=
  string_of_list_ascii
    (rev (drop_space (rev (drop_space (list_ascii_of_string s))))).

(** [str.lower] on code points 0..255: A-Z and the Latin-1 capitals. *)
Definition lower_char (c : ascii) : ascii :=
  let n := nat_of_ascii c in
  if ((65 <=? n) && (n <=? 90))%nat
     || ((192 <=? n) && (n <=? 222) && negb (n =? 215))%nat
  then ascii_of_nat (n + 32) else c.

Definition lower (s : string) : string :=
  string_of_list_ascii (map lower_char (list_ascii_of_string s)).

Definition digit_char (d : N) : ascii := ascii_of_N (48 + d).

Fixpoint dec_digits (fuel : nat) (n : N) (acc : string) : string :=
  match fuel with
  | O => acc
  | S f =>
      let acc' := String (digit_char (N.modulo n 10)) acc in
      if N.ltb n 10 then acc' else dec_digits f (N.div n 10) acc'
  end.

Definition str_of_N (n : N) : string := dec_digits (S (N.size_nat n)) n "".

(** [str(z)] for a Python int. *)
Definition str_of_Z (z : Z) : string :=
  if (z <? 0)%Z then "-" ++ str_of_N (Z.to_N (- z)) else str_of_N (Z.to_N z).

(** [str(v)]. *)
Definition py_str (v : pyval) : string :=
  match v with
  | VNone => "None"
  | VBool true => "True"
  | VBool false => "False"
  | VInt z => str_of_Z z
  | VFloat _ t => t
  | VStr s => s
  | VObj t _ => t
  end.

(** ** [_to_bool_smoker] (lines 24-34) *)

Definition yes_tokens : list string := ["yes"; "y"; "true"; "t"; "1"].
Definition no_tokens : list string := ["no"; "n"; "false"; "f"; "0"].

(** [s in (...)] on a tuple of strings. *)
Definition str_in (s : string) (l : list string) : bool :=
  existsb (String.eqb s) l.

Definition _to_bool_smoker (val : pyval) : option bool :=
  match val with
  | VNone => None
  | VBool b => Some b
  | _ =>
      let s := lower (strip (py_str val)) in
      if str_in s yes_tokens then Some true
      else if str_in s no_tokens then Some false
      else None
  end.

(** ** [float(v)]

    [float(s)] for a string follows CPython's grammar: surrounding
    whitespace (code points 9-13, 32, 133, 160 in the range 0..255; unlike
    [str.strip], not 28-31), an optional sign, then either [inf],
    [infinity] or [nan] in any case, or a decimal number: digits with
    single underscores between them, an optional fraction after a point,
    at least one digit in all, and an optional exponent.  The exact decimal
    value is rounded to the nearest double (an infinity past the largest
    one). *)

Definition digit_val (c : ascii) : option Z :=
  let n := nat_of_ascii c in
  if ((48 <=? n) && (n <=? 57))%nat then Some (Z.of_nat (n - 48)) else None.

(** Whitespace skipped by [float()]. *)
Definition float_space (c : ascii) : bool :=
  let n := nat_of_ascii c in
  ((9 <=? n) && (n <=? 13))%nat || (n =? 32)%nat || (n =? 133)%nat
  || (n =? 160)%nat.

Fixpoint drop_float_space (l : list ascii) : list ascii :=
  match l with
  | [] => []
  | c :: r => if float_space c then drop_float_space r else l
  end.

Definition float_strip (l : list ascii) : list ascii :=
  rev (drop_float_space (rev (drop_float_space l))).

Definition take_sign (l : list ascii) : Z * list ascii :=
  match l with
  | "+"%char :: r => (1%Z, r)
  | "-"%char :: r => ((-1)%Z, r)
  | _ => (1%Z, l)
  end.

(** After a first digit: further digits, each possibly preceded by one
    underscore; returns the value, the number of digits and the rest. *)
Fixpoint digits_rest (l : list ascii) (v : Z) (k : nat) : Z * nat * list ascii :=
  match l with
  | c :: r =>
      match digit_val c with
      | Some d => digits_rest r (10 * v + d) (S k)
      | None =>
          if (c =? "_")%char then
            match r with
            | c2 :: r2 =>
                match digit_val c2 with
                | Some d => digits_rest r2 (10 * v + d) (S k)
                | None => (v, k, l)
                end
            | [] => (v, k, l)
            end
          else (v, k, l)
      end
  | [] => (v, k, [])
  end.

(** A run of digits with single underscores between them. *)
Definition take_digitpart (l : list ascii) : option (Z * nat * list ascii) :=
  match l with
  | c :: r =>
      match digit_val c with
      | Some d => Some (digits_rest r d 1)
      | None => None
      end
  | [] => None
  end.

(** [digits ["." [digits]] | "." digits]: the digits as one integer, the
    number of fraction digits and the rest. *)
Definition take_mantissa (l : list ascii) : option (Z * nat * list ascii) :=
  match take_digitpart l with
  | Some (ip, _, l2) =>
      match l2 with
      | "."%char :: r =>
          match take_digitpart r with
          | Some (fp, kf, l3) => Some ((ip * 10 ^ Z.of_nat kf + fp)%Z, kf, l3)
          | None => Some (ip, 0%nat, r)
          end
      | _ => Some (ip, 0%nat, l2)
      end
  | None =>
      match l with
      | "."%char :: r => take_digitpart r
      | _ => None
      end
  end.

(** An optional exponent ending the text. *)
Definition take_exponent (l : list ascii) : option Z :=
  match l with
  | [] => Some 0%Z
  | c :: r =>
      if ((c =? "e")%char || (c =? "E")%char)%bool then
        let '(sg, r1) := take_sign r in
        match take_digitpart r1 with
        | Some (e, _, []) => Some (sg * e)%Z
        | _ => None
        end
      else None
  end.

(** What a string accepted by [float()] spells. *)
Inductive float_literal : Type :=
| LitNum (sg m e : Z)       (** [sg * m * 10^e] *)
| LitInf (neg : bool)
| LitNaN.

Definition float_syntax (s : string) : option float_literal :=
  let '(sg, l) := take_sign (float_strip (list_ascii_of_string s)) in
  let w := string_of_list_ascii (map lower_char l) in
  if (w =? "inf") || (w =? "infinity") then Some (LitInf (sg <? 0)%Z)
  else if w =? "nan" then Some LitNaN
  else
    match take_mantissa l with
    | Some (m, kf, l3) =>
        match take_exponent l3 with
        | Some e => Some (LitNum sg m (e - Z.of_nat kf))
        | None => None
        end
    | None => None
    end.

Definition Qc_of_Z (z : Z) : Qc := Q2Qc (inject_Z z).

Definition pow10 (e : Z) : Q :=
  if (e <? 0)%Z then / inject_Z (10 ^ (- e)) else inject_Z (10 ^ e).

(** [float(s)] for a string; [None] when it raises ValueError. *)
Definition float_of_string (s : string) : option pyfloat :=
  match float_syntax s with
  | Some (LitNum sg m e) => Some (round_double (inject_Z (sg * m) * pow10 e)%Q)
  | Some (LitInf neg) => Some (PInf neg)
  | Some LitNaN => Some PNaN
  | None => None
  end.

(** [float(v)]; [None] when it raises: a TypeError for None, a ValueError
    for a string it does not accept, an OverflowError for an int whose
    rounding reaches [2^1024]. *)
Definition float_of (v : pyval) : option pyfloat :=
  match v with
  | VNone => None
  | VBool b => Some (PFin (if b then 1 else 0)%Qc)
  | VInt z =>
      match round_double (inject_Z z) with
      | PInf _ => None
      | f => Some f
      end
  | VFloat f _ => Some (to_double f)
  | VStr s => float_of_string s
  | VObj _ f => option_map to_double f
  end.

(** The exact model reads a tip through the finite values of [float()];
    a tip whose [float()] is nan or an infinity is read as not
    convertible there (module [Float64] below keeps them). *)
Definition py_float (v : pyval) : option Qc :=
  match float_of v with
  | Some (PFin q) => Some q
  | _ => None
  end.


(** ** Inputs of [compare_avg_tip_by_smoker] *)

(** A record of the iterable path, as the loop body sees it.
    - [RDict kvs]: a record whose [.get] reads like a dict's: a dict (an
      association list; Python dict keys are unique, so the first binding
      is the binding), or an object that [dict(rec)] (line 76) turns into
      one, such as an iterable of key/value pairs, given by that dict.
    - [ROpaque]: a record the loop skips: an object with neither [.get]
      nor [__getitem__] on which [dict(rec)] raises (line 78), or one with
      [__getitem__] but no [.get], on which [rec.get('tip', ...)] raises
      (line 93). *)
Inductive record : Type :=
| RDict (kvs : list (string * pyval))
| ROpaque.

(** [d.get(k, default)]. *)
Fixpoint dict_get (kvs : list (string * pyval)) (k : string) (default : pyval)
  : pyval :=
  match kvs with
  | [] => default
  | (k', v) :: r => if String.eqb k k' then v else dict_get r k default
  end.

(** A DataFrame: its column names and the rows that
    [df[['tip','smoker']].iterrows()] yields.  pandas builds each such row
    as one Series, converting the two cells to a common dtype (an int
    smoker cell beside a float tip arrives as a float); [row_tip] and
    [row_smoker] are the cells after that conversion, the values that
    [row['tip']] and [row['smoker']] return at lines 61 and 63. *)
Record row : Type := { row_tip : pyval; row_smoker : pyval }.
Record table : Type := { columns : list string; rows : list row }.

Inductive input : Type :=
| DataFrame (df : table)
| Records (recs : list record).

(** [ValueError(msg)], the only exception the routine raises itself. *)
Inductive exc : Type := ValueError (msg : string).

Definition df_error_msg : string :=
  "DataFrame must contain 'tip' and 'smoker' columns".

(** ** The two loops (lines 56-97)

    The state is the pair [(tips_smoker, tips_non)]; [append] is
    [list.append]. *)

Definition groups : Type := (list Qc * list Qc)%type.

(** Body shared by the two loops after [s] and the [float] attempt. *)
Definition add_tip (s : option bool) (tip : Qc) (g : groups) : groups :=
  let '(ts, tn) := g in
  match s with
  | Some true => ((ts ++ [tip])%list, tn)
  | Some false => (ts, (tn ++ [tip])%list)
  | None => (ts, tn)
  end.

(** One iteration of lines 60-69. *)
Definition df_step (g : groups) (r : row) : groups :=
  let s := _to_bool_smoker (row_smoker r) in
  match py_float (row_tip r) with
  | None => g                                            (** continue *)
  | Some tip => add_tip s tip g
  end.

(** One iteration of lines 72-97. *)
Definition rec_step (g : groups) (rec : record) : groups :=
  match rec with
  | ROpaque => g
  | RDict kvs =>
      let smoker_val := dict_get kvs "smoker" (dict_get kvs "Smoker" VNone) in
      let s := _to_bool_smoker smoker_val in
      match py_float (dict_get kvs "tip" (dict_get kvs "Tip" VNone)) with
      | None => g                                          (** continue *)
      | Some tip => add_tip s tip g
      end
  end.

(** ** Means and the summary (lines 99-124) *)

(** The exact mean: the sum divided by the count.  [statistics.mean]
    computes this value exactly and rounds it to a float ([stat_mean]
    below). *)
Definition qsum (l : list Qc) : Qc := fold_left Qcplus l 0%Qc.

Definition mean (l : list Qc) : Qc :=
  (qsum l / Qc_of_Z (Z.of_nat (List.length l)))%Qc.

Definition safe_mean (lst : list Qc) : option Qc :=
  match lst with
  | [] => None
  | _ => Some (mean lst)
  end.

Section Summary.

Context {P : Type}.

(** [stats.ttest_ind(a, b, equal_var=False, nan_policy='omit')] followed
    by [float(pval)]: [None] when the call raises. *)
Definition ttest_fn : Type := list Qc -> list Qc -> option P.

Record result : Type := {
  n_smoker : nat;
  n_non_smoker : nat;
  avg_tip_smoker : option Qc;
  avg_tip_non_smoker : option Qc;
  difference : option Qc;
  ttest_pvalue : option (option P)
    (** [None]: key absent; [Some None]: the key holds [None] *)
}.

Definition summarize (scipy : option ttest_fn) (do_ttest : bool) (g : groups)
  : result :=
  let '(tips_smoker, tips_non) := g in
  let avg_smoker := safe_mean tips_smoker in
  let avg_non := safe_mean tips_non in
  {| n_smoker := List.length tips_smoker;
     n_non_smoker := List.length tips_non;
     avg_tip_smoker := avg_smoker;
     avg_tip_non_smoker := avg_non;
     difference :=
       match avg_smoker, avg_non with
       | Some a, Some b => Some (a - b)%Qc
       | _, _ => None
       end;
     ttest_pvalue :=
       if do_ttest then
         Some (match scipy with
               | None => None                  (** import failed *)
               | Some ttest_ind =>
                   match tips_smoker, tips_non with
                   | _ :: _, _ :: _ => ttest_ind tips_smoker tips_non
                   | _, _ => None
                   end
               end)
       else None |}.

(** [compare_avg_tip_by_smoker(records, do_ttest)]: [inl] is a raised
    exception. *)
Definition compare_avg_tip_by_smoker (scipy : option ttest_fn)
    (records : input) (do_ttest : bool) : exc + result :=
  match records with
  | DataFrame df =>
      if negb (str_in "tip" (columns df)) || negb (str_in "smoker" (columns df))
      then inl (ValueError df_error_msg)
      else inr (summarize scipy do_ttest (fold_left df_step (rows df) ([], [])))
  | Records recs =>
      inr (summarize scipy do_ttest (fold_left rec_step recs ([], [])))
  end.

End Summary.

(** ** Per-record view of the loops

    What one iteration does with its record: [None] when the record is
    skipped, [Some (b, tip)] when [tip] is appended to the smoker group
    ([b = true]) or to the non-smoker group ([b = false]). *)

Definition route_of (s : option bool) (f : option Qc) : option (bool * Qc) :=
  match f, s with
  | Some tip, Some b => Some (b, tip)
  | _, _ => None
  end.

Definition rec_route (rec : record) : option (bool * Qc) :=
  match rec with
  | ROpaque => None
  | RDict kvs =>
      route_of
        (_to_bool_smoker (dict_get kvs "smoker" (dict_get kvs "Smoker" VNone)))
        (py_float (dict_get kvs "tip" (dict_get kvs "Tip" VNone)))
  end.

Definition df_route (r : row) : option (bool * Qc) :=
  route_of (_to_bool_smoker (row_smoker r)) (py_float (row_tip r)).

Definition apply_route (o : option (bool * Qc)) (g : groups) : groups :=
  match o with
  | Some (b, tip) => add_tip (Some b) tip g
  | None => g
  end.

(** The tips a list of routes sends to the group [b]. *)
Definition routed_to (b : bool) (os : list (option (bool * Qc))) : list Qc :=
  flat_map (fun o => match o with
                     | Some (b', t) => if Bool.eqb b b' then [t] else []
                     | None => []
                     end) os.

(** The groups built by the loop of each input path. *)
Definition loop_groups (records : input) : groups :=
  match records with
  | DataFrame df => fold_left df_step (rows df) ([], [])
  | Records recs => fold_left rec_step recs ([], [])
  end.

Definition input_routes (records : input) : list (option (bool * Qc)) :=
  match records with
  | DataFrame df => map df_route (rows df)
  | Records recs => map rec_route recs
  end.

(** Number of input records (DataFrame rows or iterated records). *)
Definition total_records (records : input) : nat :=
  match records with
  | DataFrame df => List.length (rows df)
  | Records recs => List.length recs
  end.

(** Whether a route skips its record. *)
Definition is_skip (o : option (bool * Qc)) : bool :=
  match o with None => true | Some _ => false end.

(** Smallest and largest element of a list. *)
Definition is_min_of (m : Qc) (l : list Qc) : Prop :=
  In m l /\ forall x, In x l -> (m <= x)%Qc.
Definition is_max_of (m : Qc) (l : list Qc) : Prop :=
  In m l /\ forall x, In x l -> (x <= m)%Qc.

(** ** [statistics.mean] on floats

    [statistics.mean] adds the exact ratios of its finite data as
    fractions; a nan or an infinity goes instead to a float partial sum
    [0 + x1 + x2 + ...], which then is the total.  The mean is
    [total / n], converted to a float: the correctly rounded exact mean
    when all data are finite. *)

(** The values of a list of floats when all are finite. *)
Fixpoint finite_parts (l : list pyfloat) : option (list Qc) :=
  match l with
  | [] => Some []
  | PFin q :: r => option_map (cons q) (finite_parts r)
  | _ :: _ => None
  end.

Definition is_finite (f : pyfloat) : bool :=
  match f with PFin _ => true | _ => false end.

Definition stat_mean (l : list pyfloat) : pyfloat :=
  match finite_parts l with
  | Some qs => round_double (this (mean qs))
  | None =>
      fdiv_int (fold_left fadd (filter (fun f => negb (is_finite f)) l)
                  (PFin 0%Qc))
               (List.length l)
  end.

(** ** The routine on Python floats

    The same code as above with the values the routine really computes
    with: tips are the floats [float()] returns, including nan and the
    infinities; a mean is [statistics.mean], rounded to a float; the
    difference is a float subtraction. *)

Module Float64.

Definition groups : Type := (list pyfloat * list pyfloat)%type.

Definition add_tip (s : option bool) (tip : pyfloat) (g : groups) : groups :=
  let '(ts, tn) := g in
  match s with
  | Some true => ((ts ++ [tip])%list, tn)
  | Some false => (ts, (tn ++ [tip])%list)
  | None => (ts, tn)
  end.

(** One iteration of lines 60-69. *)
Definition df_step (g : groups) (r : row) : groups :=
  let s := _to_bool_smoker (row_smoker r) in
  match float_of (row_tip r) with
  | None => g                                            (** continue *)
  | Some tip => add_tip s tip g
  end.

(** One iteration of lines 72-97. *)
Definition rec_step (g : groups) (rec : record) : groups :=
  match rec with
  | ROpaque => g
  | RDict kvs =>
      let smoker_val := dict_get kvs "smoker" (dict_get kvs "Smoker" VNone) in
      let s := _to_bool_smoker smoker_val in
      match float_of (dict_get kvs "tip" (dict_get kvs "Tip" VNone)) with
      | None => g                                          (** continue *)
      | Some tip => add_tip s tip g
      end
  end.

Definition safe_mean (lst : list pyfloat) : option pyfloat :=
  match lst with
  | [] => None
  | _ => Some (stat_mean lst)
  end.

Section Summary.

Context {P : Type}.

Definition ttest_fn : Type := list pyfloat -> list pyfloat -> option P.

Record result : Type := {
  n_smoker : nat;
  n_non_smoker : nat;
  avg_tip_smoker : option pyfloat;
  avg_tip_non_smoker : option pyfloat;
  difference : option pyfloat;
  ttest_pvalue : option (option P)
}.

Definition summarize (scipy : option ttest_fn) (do_ttest : bool) (g : groups)
  : result :=
  let '(tips_smoker, tips_non) := g in
  let avg_smoker := safe_mean tips_smoker in
  let avg_non := safe_mean tips_non in
  {| n_smoker := List.length tips_smoker;
     n_non_smoker := List.length tips_non;
     avg_tip_smoker := avg_smoker;
     avg_tip_non_smoker := avg_non;
     difference :=
       match avg_smoker, avg_non with
       | Some a, Some b => Some (fsub a b)
       | _, _ => None
       end;
     ttest_pvalue :=
       if do_ttest then
         Some (match scipy with
               | None => None
               | Some ttest_ind =>
                   match tips_smoker, tips_non with
                   | _ :: _, _ :: _ => ttest_ind tips_smoker tips_non
                   | _, _ => None
                   end
               end)
       else None |}.

Definition compare_avg_tip_by_smoker (scipy : option ttest_fn)
    (records : input) (do_ttest : bool) : exc + result :=
  match records with
  | DataFrame df =>
      if negb (str_in "tip" (columns df)) || negb (str_in "smoker" (columns df))
      then inl (ValueError df_error_msg)
      else inr (summarize scipy do_ttest (fold_left df_step (rows df) ([], [])))
  | Records recs =>
      inr (summarize scipy do_ttest (fold_left rec_step recs ([], [])))
  end.

End Summary.

(** Per-record view: [None] when the record is skipped, [Some (b, tip)]
    when [tip] joins the smoker group ([b = true]) or the other one. *)
Definition route_of (s : option bool) (f : option pyfloat)
  : option (bool * pyfloat) :=
  match f, s with
  | Some tip, Some b => Some (b, tip)
  | _, _ => None
  end.

Definition rec_route (rec : record) : option (bool * pyfloat) :=
  match rec with
  | ROpaque => None
  | RDict kvs =>
      route_of
        (_to_bool_smoker (dict_get kvs "smoker" (dict_get kvs "Smoker" VNone)))
        (float_of (dict_get kvs "tip" (dict_get kvs "Tip" VNone)))
  end.

Definition df_route (r : row) : option (bool * pyfloat) :=
  route_of (_to_bool_smoker (row_smoker r)) (float_of (row_tip r)).

Definition apply_route (o : option (bool * pyfloat)) (g : groups) : groups :=
  match o with
  | Some (b, tip) => add_tip (Some b) tip g
  | None => g
  end.

Definition routed_to (b : bool) (os : list (option (bool * pyfloat)))
  : list pyfloat :=
  flat_map (fun o => match o with
                     | Some (b', t) => if Bool.eqb b b' then [t] else []
                     | None => []
                     end) os.

Definition loop_groups (records : input) : groups :=
  match records with
  | DataFrame df => fold_left df_step (rows df) ([], [])
  | Records recs => fold_left rec_step recs ([], [])
  end.

Definition input_routes (records : input) : list (option (bool * pyfloat)) :=
  match records with
  | DataFrame df => map df_route (rows df)
  | Records recs => map rec_route recs
  end.

Definition is_skip (o : option (bool * pyfloat)) : bool :=
  match o with None => true | Some _ => false end.

(** Smallest and largest element of a list of floats, for [<=]. *)
Definition is_min_of (m : pyfloat) (l : list pyfloat) : Prop :=
  In m l /\ forall x, In x l -> flt_le m x = true.
Definition is_max_of (m : pyfloat) (l : list pyfloat) : Prop :=
  In m l /\ forall x, In x l -> flt_le x m = true.

End Float64.

(** ** Sample data of the [__main__] block *)

Definition tip_rec (tip : Qc) (text smoker : string) : record :=
  RDict [("tip", VFloat (PFin tip) text); ("smoker", VStr smoker)].

Definition sample : list record :=
  [tip_rec (Qc_of_Z 3) "3.0" "No";
   tip_rec (Qc_of_Z 5) "5.0" "Yes";
   tip_rec (Q2Qc (5 # 2)) "2.5" "No";
   tip_rec (Qc_of_Z 4) "4.0" "Yes";
   tip_rec (Q2Qc (7 # 2)) "3.5" "No"].

(** Two smoker records, the first with the tip "nan". *)
Definition nan_sample : list record :=
  [RDict [("tip", VStr "nan"); ("smoker", VStr "Yes")];
   tip_rec (Qc_of_Z 1) "1.0" "Yes"].

(** Closes an equality of concrete rationals (the canonical form carries a
    proof, so [reflexivity] alone does not see through it). *)
Ltac qc_concrete := vm_compute; try f_equal; apply Qc_decomp; reflexivity.

(** ** Sanity checks of the helpers *)

Example float_of_string_ex1 :
  float_of_string " 3.5 " = Some (PFin (Q2Qc (7 # 2))).
Proof. vm_compute; do 2 f_equal; apply Qc_decomp; reflexivity. Qed.
Example float_of_string_ex2 :
  float_of_string "-1_0e1" = Some (PFin (Qc_of_Z (-100))).
Proof. vm_compute; do 2 f_equal; apply Qc_decomp; reflexivity. Qed.
Example float_of_string_ex3 :
  float_of_string "abc" = None /\ float_of_string "1__0" = None
  /\ float_of_string "." = None /\ float_of_string "1e" = None
  /\ float_of_string (String (ascii_of_nat 28) "3.5") = None.
Proof. repeat split; reflexivity. Qed.
Example float_of_string_ex4 :
  float_of_string "-Infinity" = Some (PInf true)
  /\ float_of_string " nAn" = Some PNaN
  /\ float_of_string "1e400" = Some (PInf false).
Proof. repeat split; reflexivity. Qed.
(** [float('0.1')] is the double [3602879701896397 / 2^55]. *)
Example float_of_string_ex5 :
  float_of_string "0.1" = Some (PFin (Q2Qc (3602879701896397 # 36028797018963968))).
Proof. vm_compute; do 2 f_equal; apply Qc_decomp; reflexivity. Qed.
Example float_of_ex :
  float_of (VInt (2 ^ 1024 - 2 ^ 970)) = None
  /\ float_of (VInt (2 ^ 1024 - 2 ^ 970 - 1)) <> None
  /\ py_float (VStr "nan") = None.
Proof. vm_compute; split; [reflexivity|]; split; [discriminate|reflexivity]. Qed.
(** [statistics.mean([1.0, 1.0, 2.0])] is the double nearest to 4/3. *)
Example stat_mean_ex :
  stat_mean [PFin 1; PFin 1; PFin (Qc_of_Z 2)]
  = PFin (Q2Qc (6004799503160661 # 4503599627370496))
  /\ stat_mean [PNaN; PFin 1] = PNaN
  /\ stat_mean [PInf false; PFin 1] = PInf false
  /\ stat_mean [PInf false; PInf true] = PNaN.
Proof.
  split; [vm_compute; f_equal; apply Qc_decomp; reflexivity|].
  vm_compute; repeat split; reflexivity.
Qed.
Example str_of_Z_ex : str_of_Z (-120) = "-120" /\ str_of_Z 0 = "0".
Proof. split; reflexivity. Qed.
Example to_bool_smoker_ex :
  _to_bool_smoker (VStr "  YES ") = Some true
  /\ _to_bool_smoker (VStr "Maybe") = None
  /\ _to_bool_smoker (VInt 1) = Some true
  /\ _to_bool_smoker (VInt 10) = None.
Proof. repeat split; reflexivity. Qed.

(** * Claims *)

Lemma str_in_In (s : string) (l : list string) :
  str_in s l = true <-> In s l.
Proof.
  unfold str_in; rewrite existsb_exists; split.
  - intros [x [Hx Heq]]; apply String.eqb_eq in Heq; subst; exact Hx.
  - intros H; exists s; split; [exact H | apply String.eqb_refl].
Qed.

Lemma str_in_false (s : string) (l : list string) :
  str_in s l = false <-> ~ In s l.
Proof.
  rewrite <- str_in_In; destruct (str_in s l); split; congruence.
Qed.

(** ** The loops through the per-record view *)

Lemma rec_step_route (g : groups) (rec : record) :
  rec_step g rec = apply_route (rec_route rec) g.
Proof.
  destruct rec as [kvs|]; [|reflexivity].
  unfold rec_step, rec_route, route_of.
  destruct (py_float _); [|reflexivity].
  destruct (_to_bool_smoker _) as [b|]; destruct g; reflexivity.
Qed.

Lemma df_step_route (g : groups) (r : row) :
  df_step g r = apply_route (df_route r) g.
Proof.
  unfold df_step, df_route, route_of.
  destruct (py_float _); [|reflexivity].
  destruct (_to_bool_smoker _) as [b|]; destruct g; reflexivity.
Qed.







Lemma routed_to_cons (b : bool) (o : option (bool * Qc)) os :
  routed_to b (o :: os)
  = ((match o with
      | Some (b', t) => if Bool.eqb b b' then [t] else []
      | None => []
      end) ++ routed_to b os)%list.
Proof. reflexivity. Qed.

Lemma routed_lengths (os : list (option (bool * Qc))) :
  (List.length (routed_to true os) + List.length (routed_to false os)
   + List.length (filter is_skip os) = List.length os)%nat.
Proof.
  induction os as [|[[[|] t]|] os IH]; [reflexivity| | |];
    rewrite !routed_to_cons; simpl; lia.
Qed.

Lemma filter_is_skip_nil (os : list (option (bool * Qc))) :
  filter is_skip os = [] <-> Forall (fun o => o <> None) os.
Proof.
  induction os as [|o os IH]; simpl.
  - split; auto.
  - rewrite Forall_cons_iff, <- IH.
    destruct o; simpl; split; intuition congruence.
Qed.

Lemma apply_route_at_most_one (o : option (bool * Qc)) (g : groups) :
  apply_route o g = g
  \/ exists t, apply_route o g = ((fst g ++ [t])%list, snd g)
            \/ apply_route o g = (fst g, (snd g ++ [t])%list).
Proof.
  destruct g as [ts tn]; destruct o as [[[|] t]|]; simpl;
    [right; exists t; left | right; exists t; right | left]; reflexivity.
Qed.

Lemma qsum_fold_right (l : list Qc) : qsum l = fold_right Qcplus 0%Qc l.
Proof.
  unfold qsum; apply fold_symmetric.
  - intros; apply Qcplus_assoc.
  - intros; apply Qcplus_comm.
Qed.




(** ** Bounds on a mean *)

Lemma this_qsum (l : list Qc) :
  this (qsum l) == fold_right Qplus 0%Q (map this l).
Proof.
  rewrite qsum_fold_right; induction l as [|x l IH]; cbn [fold_right map].
  - reflexivity.
  - unfold Qcplus at 1, Q2Qc at 1; cbn [this].
    rewrite Qred_correct, IH; reflexivity.
Qed.

Lemma this_mean (l : list Qc) :
  this (mean l) == (this (qsum l) / inject_Z (Z.of_nat (List.length l)))%Q.
Proof.
  unfold mean, Qcdiv, Qcmult, Qcinv, Qc_of_Z, Q2Qc; cbn [this].
  rewrite !Qred_correct; reflexivity.
Qed.

Lemma nat_Q_succ (n : nat) :
  inject_Z (Z.of_nat (S n)) == (inject_Z (Z.of_nat n) + 1)%Q.
Proof. rewrite Nat2Z.inj_succ, <- Z.add_1_r, inject_Z_plus; reflexivity. Qed.

Lemma sum_lower (lo : Q) (l : list Qc) :
  (forall x, In x l -> (lo <= this x)%Q) ->
  (lo * inject_Z (Z.of_nat (List.length l)) <= fold_right Qplus 0 (map this l))%Q.
Proof.
  induction l as [|x l IH]; intros H; cbn [fold_right map List.length].
  - change (inject_Z (Z.of_nat 0)) with 0%Q; rewrite Qmult_0_r; apply Qle_refl.
  - rewrite nat_Q_succ, Qmult_plus_distr_r, Qmult_1_r, Qplus_comm.
    apply Qplus_le_compat; [apply H; left; reflexivity|].
    apply IH; intros y Hy; apply H; right; exact Hy.
Qed.

Lemma sum_upper (hi : Q) (l : list Qc) :
  (forall x, In x l -> (this x <= hi)%Q) ->
  (fold_right Qplus 0 (map this l) <= hi * inject_Z (Z.of_nat (List.length l)))%Q.
Proof.
  induction l as [|x l IH]; intros H; cbn [fold_right map List.length].
  - change (inject_Z (Z.of_nat 0)) with 0%Q; rewrite Qmult_0_r; apply Qle_refl.
  - rewrite nat_Q_succ, Qmult_plus_distr_r, Qmult_1_r, (Qplus_comm _ hi).
    apply Qplus_le_compat; [apply H; left; reflexivity|].
    apply IH; intros y Hy; apply H; right; exact Hy.
Qed.

Lemma mean_between (l : list Qc) (lo hi : Qc) :
  l <> [] -> (forall x, In x l -> (lo <= x <= hi)%Qc) ->
  (lo <= mean l <= hi)%Qc.
Proof.
  intros Hne H.
  assert (Hpos : (0 < inject_Z (Z.of_nat (List.length l)))%Q).
  { destruct l as [|x l]; [congruence|].
    unfold Qlt; simpl; lia. }
  unfold Qcle; rewrite this_mean, this_qsum; split.
  - apply Qle_shift_div_l; [exact Hpos|].
    apply sum_lower; intros x Hx; apply H; exact Hx.
  - apply Qle_shift_div_r; [exact Hpos|].
    apply sum_upper; intros x Hx; apply H; exact Hx.
Qed.

Lemma exists_min (l : list Qc) : l <> [] -> exists m, is_min_of m l.
Proof.
  induction l as [|x l IH]; intros Hne; [congruence|].
  destruct l as [|y l'].
  - exists x; split; [left; reflexivity|].
    intros z [<-|[]]; apply Qcle_refl.
  - destruct IH as [m [Hin Hmin]]; [discriminate|].
    destruct (Qclt_le_dec x m) as [Hlt|Hle].
    + exists x; split; [left; reflexivity|].
      intros z [<-|Hz]; [apply Qcle_refl|].
      apply Qcle_trans with m; [apply Qclt_le_weak, Hlt|apply Hmin, Hz].
    + exists m; split; [right; exact Hin|].
      intros z [<-|Hz]; [exact Hle|apply Hmin, Hz].
Qed.

Lemma exists_max (l : list Qc) : l <> [] -> exists m, is_max_of m l.
Proof.
  induction l as [|x l IH]; intros Hne; [congruence|].
  destruct l as [|y l'].
  - exists x; split; [left; reflexivity|].
    intros z [<-|[]]; apply Qcle_refl.
  - destruct IH as [m [Hin Hmax]]; [discriminate|].
    destruct (Qclt_le_dec m x) as [Hlt|Hle].
    + exists x; split; [left; reflexivity|].
      intros z [<-|Hz]; [apply Qcle_refl|].
      apply Qcle_trans with m; [apply Hmax, Hz|apply Qclt_le_weak, Hlt].
    + exists m; split; [right; exact Hin|].
      intros z [<-|Hz]; [exact Hle|apply Hmax, Hz].
Qed.

Lemma safe_mean_between (l : list Qc) :
  l <> [] ->
  exists m lo hi, safe_mean l = Some m /\ is_min_of lo l /\ is_max_of hi l
                  /\ (lo <= m <= hi)%Qc.
Proof.
  intros Hne.
  destruct (exists_min l Hne) as [lo Hlo], (exists_max l Hne) as [hi Hhi].
  exists (mean l), lo, hi; split; [destruct l; [congruence|reflexivity]|].
  split; [exact Hlo|]; split; [exact Hhi|].
  apply mean_between; [exact Hne|].
  intros x Hx; split; [apply (proj2 Hlo), Hx|apply (proj2 Hhi), Hx].
Qed.

(** ** Powers of two *)

Lemma two_neq_0 : ~ ((2 # 1) == 0)%Q.
Proof. unfold Qeq; simpl; lia. Qed.

Lemma pow2Q_pos (e : Z) : (0 < pow2Q e)%Q.
Proof. apply Qpower_0_lt; unfold Qlt; simpl; lia. Qed.

Lemma pow2Q_add (a b : Z) : (pow2Q (a + b) == pow2Q a * pow2Q b)%Q.
Proof. apply Qpower_plus, two_neq_0. Qed.

Lemma pow2Q_le (a b : Z) : (a <= b)%Z -> (pow2Q a <= pow2Q b)%Q.
Proof. intros H; apply Qpower_le_compat_l; [exact H|unfold Qle; simpl; lia]. Qed.

Lemma pow2Q_lt (a b : Z) : (a < b)%Z -> (pow2Q a < pow2Q b)%Q.
Proof. intros H; apply Qpower_lt_compat_l; [exact H|unfold Qlt; simpl; lia]. Qed.

Lemma pow2Q_lt_inv (a b : Z) : (pow2Q a < pow2Q b)%Q -> (a < b)%Z.
Proof. intros H; apply Qpower_lt_compat_l_inv in H; [exact H|unfold Qlt; simpl; lia]. Qed.

Lemma pow2Q_Z (a : Z) : (0 <= a)%Z -> (pow2Q a == inject_Z (2 ^ a))%Q.
Proof. intros H; unfold pow2Q; rewrite Zpower_Qpower by exact H; reflexivity. Qed.

(** [y == (y * 2^-k) * 2^k]. *)
Lemma pow2Q_unscale (y : Q) (k : Z) : (y == y * pow2Q (- k) * pow2Q k)%Q.
Proof.
  rewrite <- Qmult_assoc, <- pow2Q_add.
  replace (- k + k)%Z with 0%Z by ring.
  unfold pow2Q; simpl; ring.
Qed.

(** A double scaled by [2^-k], for an exponent [e >= k], is an integer. *)
Lemma double_scaled (m e k : Z) :
  (k <= e)%Z ->
  (inject_Z m * pow2Q e * pow2Q (- k) == inject_Z (m * 2 ^ (e - k)))%Q.
Proof.
  intros H.
  rewrite <- Qmult_assoc, <- pow2Q_add, inject_Z_mult, pow2Q_Z by lia.
  replace (e + - k)%Z with (e - k)%Z by ring; reflexivity.
Qed.

Lemma mantissa_lt (m e : Z) :
  (Z.abs m < 2 ^ 53)%Z -> (inject_Z m * pow2Q e < pow2Q (53 + e))%Q.
Proof.
  intros H.
  rewrite pow2Q_add, (pow2Q_Z 53) by lia.
  apply Qmult_lt_compat_r; [apply pow2Q_pos|].
  rewrite <- Zlt_Qlt; lia.
Qed.

Lemma double_lt_max (q : Q) : is_double q -> (q < pow2Q 1024)%Q.
Proof.
  intros (m & e & Hm & He & Hq); rewrite Hq.
  apply Qlt_le_trans with (pow2Q (53 + e)); [apply mantissa_lt, Hm|].
  apply pow2Q_le; lia.
Qed.

Lemma is_double_opp (q : Q) : is_double q -> is_double (- q)%Q.
Proof.
  intros (m & e & Hm & He & Hq); exists (- m)%Z, e.
  split; [rewrite Z.abs_opp; exact Hm|]; split; [exact He|].
  rewrite Hq, inject_Z_opp; ring.
Qed.

Lemma is_double_eq (q q' : Q) : (q == q')%Q -> is_double q -> is_double q'.
Proof.
  intros Heq (m & e & Hm & He & Hq); exists m, e.
  split; [exact Hm|]; split; [exact He|]; rewrite <- Heq; exact Hq.
Qed.

(** ** Rounding to an integer *)

Lemma round_half_even_floor (s : Q) :
  (Qfloor s <= round_half_even s <= Qfloor s + 1)%Z.
Proof.
  unfold round_half_even.
  destruct (Qcompare _ _); [destruct (Z.even _)| |]; lia.
Qed.

Lemma Qfloor_of_eq (s : Q) (z : Z) : (s == inject_Z z)%Q -> Qfloor s = z.
Proof.
  intros H.
  assert (H1 : (Qfloor s <= Qfloor (inject_Z z))%Z)
    by (apply Qfloor_resp_le; rewrite H; apply Qle_refl).
  assert (H2 : (Qfloor (inject_Z z) <= Qfloor s)%Z)
    by (apply Qfloor_resp_le; rewrite H; apply Qle_refl).
  rewrite Qfloor_Z in H1, H2; lia.
Qed.

Lemma round_half_even_int (s : Q) (z : Z) :
  (s == inject_Z z)%Q -> round_half_even s = z.
Proof.
  intros H; unfold round_half_even; rewrite (Qfloor_of_eq s z H).
  assert (Hlt : (s - inject_Z z < 1 # 2)%Q).
  { setoid_replace (s - inject_Z z)%Q with 0%Q by (rewrite H; ring).
    unfold Qlt; simpl; lia. }
  rewrite (proj1 (Qlt_alt _ _) Hlt); reflexivity.
Qed.

Lemma round_half_even_ge (s : Q) (z : Z) :
  (inject_Z z <= s)%Q -> (z <= round_half_even s)%Z.
Proof.
  intros H; apply Qfloor_resp_le in H; rewrite Qfloor_Z in H.
  pose proof (round_half_even_floor s); lia.
Qed.

Lemma round_half_even_le (s : Q) (z : Z) :
  (s <= inject_Z z)%Q -> (round_half_even s <= z)%Z.
Proof.
  intros H.
  pose proof (round_half_even_floor s) as Hf.
  destruct (Z_lt_le_dec (Qfloor s) z) as [Hlt|Hge]; [lia|].
  assert (Hfz : Qfloor s = z).
  { apply Qfloor_resp_le in H; rewrite Qfloor_Z in H; lia. }
  assert (Hs : (s == inject_Z z)%Q).
  { apply Qle_antisym; [exact H|]. rewrite <- Hfz; apply Qfloor_le. }
  rewrite (round_half_even_int s z Hs); lia.
Qed.

(** ** The binade of a positive rational *)

Lemma inject_Z_pos (z : Z) : (0 < z)%Z -> (0 < inject_Z z)%Q.
Proof. intros H; change 0%Q with (inject_Z 0); rewrite <- Zlt_Qlt; exact H. Qed.

Lemma Qmake_scaled (n : Z) (d : positive) (z : Z) :
  ((n # d) * inject_Z (z * Zpos d) == inject_Z (n * z))%Q.
Proof. unfold Qeq, Qmult; simpl; rewrite ?Pos.mul_1_r, ?Pos2Z.inj_mul; ring. Qed.

Lemma binade_spec (x : Q) :
  (0 < x)%Q -> (pow2Q (binade x) <= x < pow2Q (binade x + 1))%Q.
Proof.
  intros Hx; destruct x as [n d].
  assert (Hn : (0 < n)%Z) by (unfold Qlt in Hx; simpl in Hx; lia).
  unfold binade; cbn [Qnum Qden].
  pose proof (Z.log2_spec n Hn) as [Ha1 Ha2].
  pose proof (Z.log2_spec (Zpos d) ltac:(lia)) as [Hb1 Hb2].
  pose proof (Z.log2_nonneg n) as Ha0.
  pose proof (Z.log2_nonneg (Zpos d)) as Hb0.
  set (a := Z.log2 n) in *; set (b := Z.log2 (Zpos d)) in *.
  unfold Z.succ in Ha2, Hb2.
  assert (Hlow : (pow2Q (a - b - 1) <= n # d)%Q).
  { apply (Qmult_le_r _ _ (inject_Z (2 ^ (b + 1) * Zpos d)));
      [apply inject_Z_pos; apply Z.mul_pos_pos; [apply Z.pow_pos_nonneg|]; lia|].
    rewrite Qmake_scaled, (inject_Z_mult (2 ^ (b + 1))), Qmult_assoc.
    rewrite <- (pow2Q_Z (b + 1)) by lia; rewrite <- pow2Q_add.
    replace (a - b - 1 + (b + 1))%Z with a by ring.
    rewrite pow2Q_Z by lia; rewrite <- inject_Z_mult, <- Zle_Qle.
    apply Z.le_trans with (n * Zpos d)%Z;
      [apply Z.mul_le_mono_nonneg_r; lia|].
    apply Z.mul_le_mono_nonneg_l; lia. }
  assert (Hup : (n # d < pow2Q (a - b + 1))%Q).
  { apply (Qmult_lt_r _ _ (inject_Z (2 ^ b * Zpos d)));
      [apply inject_Z_pos; apply Z.mul_pos_pos; [apply Z.pow_pos_nonneg|]; lia|].
    rewrite Qmake_scaled, (inject_Z_mult (2 ^ b)), Qmult_assoc.
    rewrite <- (pow2Q_Z b) by lia; rewrite <- pow2Q_add.
    replace (a - b + 1 + b)%Z with (a + 1)%Z by ring.
    rewrite pow2Q_Z by lia; rewrite <- inject_Z_mult, <- Zlt_Qlt.
    apply Z.lt_le_trans with (2 ^ (a + 1) * 2 ^ b)%Z;
      [apply Z.mul_lt_mono_pos_r; [apply Z.pow_pos_nonneg|]; lia|].
    apply Z.mul_le_mono_nonneg_l; [apply Z.pow_nonneg|]; lia. }
  destruct (Qle_bool (pow2Q (a - b)) (n # d)) eqn:E.
  - apply Qle_bool_iff in E; split; [exact E|exact Hup].
  - split; [exact Hlow|].
    replace (a - b - 1 + 1)%Z with (a - b)%Z by ring.
    apply Qnot_le_lt; intros H; apply Qle_bool_iff in H; congruence.
Qed.

(** ** Rounding a positive rational *)

Lemma scale_spec (x : Q) :
  (-1074 <= scale x)%Z /\ (binade x - 52 <= scale x)%Z
  /\ ((-1074 < scale x)%Z -> scale x = (binade x - 52)%Z).
Proof. unfold scale; lia. Qed.

Lemma round_pos_nonneg (x : Q) : (0 <= x)%Q -> (0 <= round_pos x)%Q.
Proof.
  intros Hx; unfold round_pos.
  apply Qmult_le_0_compat; [|apply Qlt_le_weak, pow2Q_pos].
  change 0%Q with (inject_Z 0); rewrite <- Zle_Qle.
  apply round_half_even_ge.
  apply Qmult_le_0_compat; [exact Hx|apply Qlt_le_weak, pow2Q_pos].
Qed.

(** A double whose exponent is below [scale x] lies below [2^binade x]. *)
Lemma below_binade (x : Q) (m e : Z) :
  (Z.abs m < 2 ^ 53)%Z -> (-1074 <= e)%Z -> (e < scale x)%Z ->
  (inject_Z m * pow2Q e < pow2Q (binade x))%Q.
Proof.
  intros Hm He Hk.
  destruct (scale_spec x) as (_ & _ & Hs).
  apply Qlt_le_trans with (pow2Q (53 + e)); [apply mantissa_lt, Hm|].
  apply pow2Q_le; lia.
Qed.

(** Past the subnormal range, [x] scaled by [2^-scale x] has 53 bits. *)
Lemma scaled_binade_ge (x : Q) :
  (0 < x)%Q -> (-1074 < scale x)%Z ->
  (inject_Z (2 ^ 52) <= x * pow2Q (- scale x))%Q.
Proof.
  intros Hx Hk.
  destruct (scale_spec x) as (_ & _ & Hs).
  rewrite <- (pow2Q_Z 52) by lia.
  replace 52%Z with (binade x + - scale x)%Z by lia.
  rewrite pow2Q_add.
  apply Qmult_le_compat_r; [apply binade_spec, Hx|apply Qlt_le_weak, pow2Q_pos].
Qed.

Lemma scaled_lt (x : Q) :
  (0 < x)%Q -> (x * pow2Q (- scale x) < inject_Z (2 ^ 53))%Q.
Proof.
  intros Hx.
  destruct (scale_spec x) as (_ & Hs & _).
  rewrite <- (pow2Q_Z 53) by lia.
  apply Qlt_le_trans with (pow2Q (binade x + 1) * pow2Q (- scale x))%Q.
  - apply Qmult_lt_compat_r; [apply pow2Q_pos|apply binade_spec, Hx].
  - rewrite <- pow2Q_add; apply pow2Q_le; lia.
Qed.

Lemma round_pos_lower (x lo : Q) :
  (0 < x)%Q -> is_double lo -> (lo <= x)%Q -> (lo <= round_pos x)%Q.
Proof.
  intros Hx (m & e & Hm & He & Hlo) Hle.
  destruct (Z_le_gt_dec m 0) as [Hm0|Hm0].
  - apply Qle_trans with 0%Q; [|apply round_pos_nonneg, Qlt_le_weak, Hx].
    rewrite Hlo.
    apply Qle_trans with (inject_Z 0 * pow2Q e)%Q.
    + apply Qmult_le_compat_r; [rewrite <- Zle_Qle; exact Hm0|].
      apply Qlt_le_weak, pow2Q_pos.
    + unfold inject_Z; rewrite Qmult_0_l; apply Qle_refl.
  - unfold round_pos.
    destruct (Z_le_gt_dec (scale x) e) as [Hke|Hke].
    + rewrite Hlo, (pow2Q_unscale (inject_Z m * pow2Q e) (scale x)),
        (double_scaled m e (scale x) Hke).
      apply Qmult_le_compat_r; [|apply Qlt_le_weak, pow2Q_pos].
      rewrite <- Zle_Qle; apply round_half_even_ge.
      rewrite <- (double_scaled m e (scale x) Hke), <- Hlo.
      apply Qmult_le_compat_r; [exact Hle|apply Qlt_le_weak, pow2Q_pos].
    + destruct (scale_spec x) as (_ & _ & Hs).
      apply Qle_trans with (pow2Q (binade x)).
      * rewrite Hlo; apply Qlt_le_weak, below_binade; lia.
      * replace (binade x) with (52 + scale x)%Z by lia.
        rewrite pow2Q_add, (pow2Q_Z 52) by lia.
        apply Qmult_le_compat_r; [|apply Qlt_le_weak, pow2Q_pos].
        rewrite <- Zle_Qle; apply round_half_even_ge.
        apply scaled_binade_ge; [exact Hx|lia].
Qed.

Lemma round_pos_upper (x hi : Q) :
  (0 < x)%Q -> is_double hi -> (x <= hi)%Q -> (round_pos x <= hi)%Q.
Proof.
  intros Hx (m & e & Hm & He & Hhi) Hle.
  unfold round_pos.
  destruct (Z_le_gt_dec (scale x) e) as [Hke|Hke].
  - rewrite Hhi, (pow2Q_unscale (inject_Z m * pow2Q e) (scale x)),
      (double_scaled m e (scale x) Hke).
    apply Qmult_le_compat_r; [|apply Qlt_le_weak, pow2Q_pos].
    rewrite <- Zle_Qle; apply round_half_even_le.
    rewrite <- (double_scaled m e (scale x) Hke), <- Hhi.
    apply Qmult_le_compat_r; [exact Hle|apply Qlt_le_weak, pow2Q_pos].
  - exfalso.
    assert (H : (hi < x)%Q).
    { apply Qlt_le_trans with (pow2Q (binade x)).
      - rewrite Hhi; apply below_binade; lia.
      - apply binade_spec, Hx. }
    apply (Qlt_irrefl x), Qle_lt_trans with hi; [exact Hle|].
    apply Qlt_le_trans with x; [exact H|apply Qle_refl].
Qed.

Lemma round_pos_double (x : Q) :
  (0 < x)%Q -> (round_pos x < pow2Q 1024)%Q -> is_double (round_pos x).
Proof.
  intros Hx Hmax.
  destruct (scale_spec x) as (Hk1 & Hk2 & Hk3).
  set (M := round_half_even (x * pow2Q (- scale x))).
  assert (HM : (0 <= M <= 2 ^ 53)%Z).
  { split; apply round_half_even_ge || apply round_half_even_le.
    - apply Qmult_le_0_compat; [apply Qlt_le_weak, Hx|apply Qlt_le_weak, pow2Q_pos].
    - apply Qlt_le_weak, scaled_lt, Hx. }
  assert (Hr : (round_pos x == inject_Z M * pow2Q (scale x))%Q) by reflexivity.
  destruct (Z.eq_dec M (2 ^ 53)) as [Heq|Hne].
  - assert (Hr' : (round_pos x == pow2Q (53 + scale x))%Q).
    { rewrite Hr, Heq, pow2Q_add, (pow2Q_Z 53) by lia; reflexivity. }
    assert (Hlt : (53 + scale x < 1024)%Z).
    { apply pow2Q_lt_inv; rewrite <- Hr'; exact Hmax. }
    exists (2 ^ 52)%Z, (scale x + 1)%Z.
    split; [reflexivity|]; split; [lia|].
    rewrite Hr', <- (pow2Q_Z 52) by lia; rewrite <- pow2Q_add.
    replace (52 + (scale x + 1))%Z with (53 + scale x)%Z by ring; reflexivity.
  - exists M, (scale x).
    split; [rewrite Z.abs_eq; lia|]; split; [|exact Hr].
    split; [exact Hk1|].
    destruct (Z_le_gt_dec (scale x) 971) as [Hle|Hgt]; [exact Hle|exfalso].
    assert (H52 : (2 ^ 52 <= M)%Z)
      by (apply round_half_even_ge, scaled_binade_ge; [exact Hx|lia]).
    apply (Qlt_irrefl (pow2Q 1024)), Qle_lt_trans with (round_pos x);
      [|exact Hmax].
    rewrite Hr.
    apply Qle_trans with (pow2Q (52 + scale x)); [apply pow2Q_le; lia|].
    rewrite pow2Q_add, (pow2Q_Z 52) by lia.
    apply Qmult_le_compat_r; [rewrite <- Zle_Qle; exact H52|].
    apply Qlt_le_weak, pow2Q_pos.
Qed.

(** ** [round_double] *)

Lemma round_double_between (x lo hi : Q) :
  is_double lo -> is_double hi -> (lo <= x <= hi)%Q ->
  exists q, round_double x = PFin q /\ (lo <= this q <= hi)%Q.
Proof.
  intros Hlo Hhi [H1 H2].
  destruct x as [[|p|p] d]; unfold round_double; cbn [Qnum].
  - exists 0%Qc; split; [reflexivity|].
    assert (Hz : (0 # d == 0)%Q) by reflexivity.
    change (this 0%Qc) with 0%Q; rewrite <- Hz; split; assumption.
  - assert (Hx : (0 < Zpos p # d)%Q) by (unfold Qlt; simpl; lia).
    pose proof (round_pos_lower _ lo Hx Hlo H1) as Hr1.
    pose proof (round_pos_upper _ hi Hx Hhi H2) as Hr2.
    destruct (Qle_bool (pow2Q 1024) (round_pos (Zpos p # d))) eqn:E.
    + exfalso; apply Qle_bool_iff in E.
      apply (Qlt_irrefl (pow2Q 1024)), Qle_lt_trans with hi;
        [apply Qle_trans with (round_pos (Zpos p # d)); assumption|].
      apply double_lt_max, Hhi.
    + exists (Q2Qc (round_pos (Zpos p # d))); split; [reflexivity|].
      unfold Q2Qc; cbn [this]; rewrite Qred_correct; split; assumption.
  - assert (Hx : (0 < - (Zneg p # d))%Q) by (unfold Qlt; simpl; lia).
    pose proof (round_pos_lower _ (- hi) Hx (is_double_opp _ Hhi)
                  (Qopp_le_compat _ _ H2)) as Hr1.
    pose proof (round_pos_upper _ (- lo) Hx (is_double_opp _ Hlo)
                  (Qopp_le_compat _ _ H1)) as Hr2.
    destruct (Qle_bool (pow2Q 1024) (round_pos (- (Zneg p # d)))) eqn:E.
    + exfalso; apply Qle_bool_iff in E.
      apply (Qlt_irrefl (pow2Q 1024)), Qle_lt_trans with (- lo)%Q;
        [apply Qle_trans with (round_pos (- (Zneg p # d))); assumption|].
      apply double_lt_max, is_double_opp, Hlo.
    + exists (Q2Qc (- round_pos (- (Zneg p # d)))); split; [reflexivity|].
      unfold Q2Qc; cbn [this]; rewrite Qred_correct.
      apply Qopp_le_compat in Hr1; apply Qopp_le_compat in Hr2.
      rewrite Qopp_involutive in Hr1, Hr2; split; assumption.
Qed.

Lemma round_double_double (x : Q) (q : Qc) :
  round_double x = PFin q -> is_double (this q).
Proof.
  destruct x as [[|p|p] d]; unfold round_double; cbn [Qnum].
  - intros H; injection H as <-.
    exists 0%Z, 0%Z; split; [reflexivity|]; split; [lia|reflexivity].
  - destruct (Qle_bool _ _) eqn:E; [discriminate|].
    intros H; injection H as <-; unfold Q2Qc; cbn [this].
    apply is_double_eq with (round_pos (Zpos p # d));
      [symmetry; apply Qred_correct|].
    apply round_pos_double; [unfold Qlt; simpl; lia|].
    apply Qnot_le_lt; intros H; apply Qle_bool_iff in H; congruence.
  - destruct (Qle_bool _ _) eqn:E; [discriminate|].
    intros H; injection H as <-; unfold Q2Qc; cbn [this].
    apply is_double_eq with (- round_pos (- (Zneg p # d)))%Q;
      [symmetry; apply Qred_correct|].
    apply is_double_opp, round_pos_double; [unfold Qlt; simpl; lia|].
    apply Qnot_le_lt; intros H; apply Qle_bool_iff in H; congruence.
Qed.

Lemma to_double_double (f : pyfloat) (q : Qc) :
  to_double f = PFin q -> is_double (this q).
Proof. destruct f; simpl; [apply round_double_double|discriminate|discriminate]. Qed.

(** Every finite float [float()] returns is a double. *)
Lemma float_of_double (v : pyval) (q : Qc) :
  float_of v = Some (PFin q) -> is_double (this q).
Proof.
  destruct v as [| b | z | f t | s | t f]; simpl.
  - discriminate.
  - intros H; injection H as <-.
    destruct b; [exists 1%Z, 0%Z|exists 0%Z, 0%Z];
      (split; [reflexivity|]); (split; [lia|reflexivity]).
  - destruct (round_double (inject_Z z)) eqn:E; intros H; inversion H; subst.
    exact (round_double_double _ _ E).
  - intros H; injection H as H; exact (to_double_double _ _ H).
  - unfold float_of_string.
    destruct (float_syntax s) as [[sg m e|neg|]|]; intros H; inversion H.
    apply (round_double_double _ _ H1).
  - destruct f as [f|]; simpl; intros H; inversion H.
    exact (to_double_double _ _ H1).
Qed.

(** ** [statistics.mean] of finite floats *)

Lemma finite_parts_map (qs : list Qc) : finite_parts (map PFin qs) = Some qs.
Proof. induction qs as [|q qs IH]; simpl; [reflexivity|rewrite IH; reflexivity]. Qed.

Lemma all_finite (l : list pyfloat) :
  (forall x, In x l -> is_finite x = true) -> exists qs, l = map PFin qs.
Proof.
  induction l as [|x l IH]; intros H; [exists []; reflexivity|].
  destruct IH as [qs ->]; [intros y Hy; apply H; right; exact Hy|].
  specialize (H x (or_introl eq_refl)).
  destruct x as [q| |]; try discriminate.
  exists (q :: qs); reflexivity.
Qed.

Lemma stat_mean_between (qs : list Qc) :
  qs <> [] -> (forall q, In q qs -> is_double (this q)) ->
  exists m lo hi, stat_mean (map PFin qs) = PFin m
    /\ is_min_of lo qs /\ is_max_of hi qs /\ (lo <= m <= hi)%Qc.
Proof.
  intros Hne Hd.
  destruct (exists_min qs Hne) as [lo Hlo], (exists_max qs Hne) as [hi Hhi].
  assert (Hb : (lo <= mean qs <= hi)%Qc).
  { apply mean_between; [exact Hne|].
    intros x Hx; split; [apply (proj2 Hlo), Hx|apply (proj2 Hhi), Hx]. }
  destruct (round_double_between (this (mean qs)) (this lo) (this hi))
    as [m [Hm Hb']]; [apply Hd, Hlo|apply Hd, Hhi|exact Hb|].
  exists m, lo, hi.
  unfold stat_mean; rewrite finite_parts_map, Hm.
  split; [reflexivity|]; split; [exact Hlo|]; split; [exact Hhi|exact Hb'].
Qed.

(** ** The loops of [Float64] through the per-record view *)

Lemma f64_rec_step_route (g : Float64.groups) (rec : record) :
  Float64.rec_step g rec = Float64.apply_route (Float64.rec_route rec) g.
Proof.
  destruct rec as [kvs|]; [|reflexivity].
  unfold Float64.rec_step, Float64.rec_route, Float64.route_of.
  destruct (float_of _); [|reflexivity].
  destruct (_to_bool_smoker _) as [b|]; destruct g; reflexivity.
Qed.

Lemma f64_df_step_route (g : Float64.groups) (r : row) :
  Float64.df_step g r = Float64.apply_route (Float64.df_route r) g.
Proof.
  unfold Float64.df_step, Float64.df_route, Float64.route_of.
  destruct (float_of _); [|reflexivity].
  destruct (_to_bool_smoker _) as [b|]; destruct g; reflexivity.
Qed.

Lemma f64_routed_to_cons (b : bool) (o : option (bool * pyfloat)) os :
  Float64.routed_to b (o :: os)
  = ((match o with
      | Some (b', t) => if Bool.eqb b b' then [t] else []
      | None => []
      end) ++ Float64.routed_to b os)%list.
Proof. reflexivity. Qed.

Lemma f64_fold_apply_route (os : list (option (bool * pyfloat)))
    (ts tn : list pyfloat) :
  fold_left (fun g o => Float64.apply_route o g) os (ts, tn)
  = ((ts ++ Float64.routed_to true os)%list,
     (tn ++ Float64.routed_to false os)%list).
Proof.
  revert ts tn; induction os as [|o os IH]; intros ts tn.
  - cbn; rewrite !app_nil_r; reflexivity.
  - rewrite !f64_routed_to_cons; cbn [fold_left].
    destruct o as [[[|] t]|]; cbn; rewrite IH, <- ?app_assoc; reflexivity.
Qed.

Lemma f64_fold_left_map_step {A : Type}
    (step : Float64.groups -> A -> Float64.groups)
    (route : A -> option (bool * pyfloat))
    (Hstep : forall g x, step g x = Float64.apply_route (route x) g)
    (l : list A) (g : Float64.groups) :
  fold_left step l g
  = fold_left (fun g o => Float64.apply_route o g) (map route l) g.
Proof.
  revert g; induction l as [|x l IH]; intros g; simpl; [reflexivity|].
  rewrite Hstep; apply IH.
Qed.

Lemma f64_loop_groups_routes (records : input) :
  Float64.loop_groups records
  = (Float64.routed_to true (Float64.input_routes records),
     Float64.routed_to false (Float64.input_routes records)).
Proof.
  destruct records as [df|recs]; simpl.
  - rewrite (f64_fold_left_map_step Float64.df_step Float64.df_route
               f64_df_step_route).
    apply f64_fold_apply_route.
  - rewrite (f64_fold_left_map_step Float64.rec_step Float64.rec_route
               f64_rec_step_route).
    apply f64_fold_apply_route.
Qed.

Lemma f64_compare_inr {P : Type} (scipy : option (@Float64.ttest_fn P))
    (records : input) (do_ttest : bool) (r : Float64.result) :
  Float64.compare_avg_tip_by_smoker scipy records do_ttest = inr r ->
  r = Float64.summarize scipy do_ttest (Float64.loop_groups records).
Proof.
  destruct records as [df|recs]; simpl.
  - destruct (_ || _); congruence.
  - congruence.
Qed.

Lemma f64_routed_lengths (os : list (option (bool * pyfloat))) :
  (List.length (Float64.routed_to true os)
   + List.length (Float64.routed_to false os)
   + List.length (filter Float64.is_skip os) = List.length os)%nat.
Proof.
  induction os as [|[[[|] t]|] os IH]; [reflexivity| | |];
    rewrite !f64_routed_to_cons; simpl; lia.
Qed.

Lemma f64_filter_is_skip_nil (os : list (option (bool * pyfloat))) :
  filter Float64.is_skip os = [] <-> Forall (fun o => o <> None) os.
Proof.
  induction os as [|o os IH]; simpl.
  - split; auto.
  - rewrite Forall_cons_iff, <- IH.
    destruct o; simpl; split; intuition congruence.
Qed.

Lemma f64_apply_route_at_most_one (o : option (bool * pyfloat))
    (g : Float64.groups) :
  Float64.apply_route o g = g
  \/ exists t, Float64.apply_route o g = ((fst g ++ [t])%list, snd g)
            \/ Float64.apply_route o g = (fst g, (snd g ++ [t])%list).
Proof.
  destruct g as [ts tn]; destruct o as [[[|] t]|]; simpl;
    [right; exists t; left | right; exists t; right | left]; reflexivity.
Qed.

(** A tip in a group is a value [float()] returned. *)
Lemma f64_in_routed (b : bool) (os : list (option (bool * pyfloat)))
    (t : pyfloat) :
  In t (Float64.routed_to b os) -> In (Some (b, t)) os.
Proof.
  unfold Float64.routed_to; rewrite in_flat_map.
  intros [[[b' t']|] [Hin Ht]]; [|destruct Ht].
  destruct (Bool.eqb b b') eqn:E; [|destruct Ht].
  apply Bool.eqb_prop in E; subst b'.
  destruct Ht as [<-|[]]; exact Hin.
Qed.

Lemma f64_route_of_some (s : option bool) (f : option pyfloat) b t :
  Float64.route_of s f = Some (b, t) -> f = Some t.
Proof. destruct f, s; simpl; congruence. Qed.

Lemma f64_group_double (records : input) (b : bool) (q : Qc) :
  In (PFin q) (Float64.routed_to b (Float64.input_routes records)) ->
  is_double (this q).
Proof.
  intros H; apply f64_in_routed in H.
  destruct records as [df|recs]; simpl in H; apply in_map_iff in H;
    destruct H as [x [Hx _]].
  - unfold Float64.df_route in Hx; apply f64_route_of_some in Hx.
    exact (float_of_double _ _ Hx).
  - destruct x as [kvs|]; [|discriminate].
    cbn [Float64.rec_route] in Hx; apply f64_route_of_some in Hx.
    exact (float_of_double _ _ Hx).
Qed.

(** A non-empty group of finite tips: its mean is finite and lies between
    its smallest and its largest tip. *)
Lemma f64_group_between (g : list pyfloat) :
  g <> [] -> (forall x, In x g -> is_finite x = true) ->
  (forall q, In (PFin q) g -> is_double (this q)) ->
  exists m lo hi, Float64.safe_mean g = Some m /\ is_finite m = true
    /\ Float64.is_min_of lo g /\ Float64.is_max_of hi g
    /\ flt_le lo m = true /\ flt_le m hi = true.
Proof.
  intros Hne Hfin Hd.
  destruct (all_finite g Hfin) as [qs ->].
  assert (Hne' : qs <> []) by (intros ->; apply Hne; reflexivity).
  destruct (stat_mean_between qs Hne') as (m & lo & hi & Hm & Hlo & Hhi & Hb).
  { intros q Hq; apply Hd, in_map, Hq. }
  exists (PFin m), (PFin lo), (PFin hi).
  split; [destruct qs; [congruence|cbn [map Float64.safe_mean]; rewrite <- Hm; reflexivity]|].
  split; [reflexivity|].
  unfold Qcle in Hb.
  split; [split; [apply in_map, Hlo|]|].
  { intros x Hx; apply in_map_iff in Hx as [q [<- Hq]].
    apply Qle_bool_iff, (proj2 Hlo), Hq. }
  split; [split; [apply in_map, Hhi|]|].
  { intros x Hx; apply in_map_iff in Hx as [q [<- Hq]].
    apply Qle_bool_iff, (proj2 Hhi), Hq. }
  split; apply Qle_bool_iff; apply Hb.
Qed.

(** C1: on the five sample records, [compare_avg_tip_by_smoker] returns
    n_non_smoker = 3, n_smoker = 2, avg_tip_non_smoker = 3.0,
    avg_tip_smoker = 4.5 and difference = 1.5 (whatever the scipy
    environment and the [do_ttest] flag). *)
Theorem C1_sample_scenario :
  forall (P : Type) (scipy : option (@ttest_fn P)) (do_ttest : bool),
    match compare_avg_tip_by_smoker scipy (Records sample) do_ttest with
    | inr r =>
        n_non_smoker r = 3%nat /\ n_smoker r = 2%nat
        /\ avg_tip_non_smoker r = Some (Qc_of_Z 3)
        /\ avg_tip_smoker r = Some (Q2Qc (9 # 2))
        /\ difference r = Some (Q2Qc (3 # 2))
    | inl _ => False
    end.
Proof.
  intros P scipy do_ttest.
  vm_compute; repeat split; qc_concrete.
Qed.

(** The classification of a normalised string by the two token tuples. *)
Lemma token_classification (t : string) :
  let c := if str_in t yes_tokens then Some true
           else if str_in t no_tokens then Some false else None in
  (c = Some true <-> In t yes_tokens)
  /\ (c = Some false <-> In t no_tokens)
  /\ (c = None <-> ~ In t yes_tokens /\ ~ In t no_tokens).
Proof.
  cbv zeta; rewrite <- !str_in_In.
  destruct (str_in t yes_tokens) eqn:Hy, (str_in t no_tokens) eqn:Hn.
  - (* the two token tuples are disjoint *)
    exfalso. apply str_in_In in Hy, Hn.
    simpl in Hy, Hn.
    repeat (destruct Hy as [Hy|Hy]; [rewrite <- Hy in Hn;
      simpl in Hn; repeat (destruct Hn as [Hn|Hn]; [discriminate|]); exact Hn|]).
    exact Hy.
  - intuition congruence.
  - intuition congruence.
  - intuition congruence.
Qed.

(** C2: booleans pass through [_to_bool_smoker] unchanged; a string is
    stripped and lower-cased, and gives True exactly when the result is in
    {"yes","y","true","t","1"}, False exactly when it is in
    {"no","n","false","f","0"}, and None otherwise. *)
Theorem C2_to_bool_smoker_tokens :
  (forall b : bool, _to_bool_smoker (VBool b) = Some b)
  /\ (forall s : string,
        (_to_bool_smoker (VStr s) = Some true
           <-> In (lower (strip s)) yes_tokens)
        /\ (_to_bool_smoker (VStr s) = Some false
           <-> In (lower (strip s)) no_tokens)
        /\ (_to_bool_smoker (VStr s) = None
           <-> ~ In (lower (strip s)) yes_tokens
               /\ ~ In (lower (strip s)) no_tokens)).
Proof.
  split; [reflexivity|].
  intros s; exact (token_classification (lower (strip s))).
Qed.



(** C4: in an iterable input, a record whose tip cannot be converted by
    [float()] is skipped entirely: the result is the one of the input
    without it, and the call does not raise.  Stated on the floats the
    routine computes with ([Float64]), with [float()] as Python has it. *)
Theorem C4_uncoercible_tip_skipped :
  forall (P : Type) (scipy : option (@Float64.ttest_fn P)) (do_ttest : bool)
         (pre post : list record) (kvs : list (string * pyval)),
    float_of (dict_get kvs "tip" (dict_get kvs "Tip" VNone)) = None ->
    Float64.compare_avg_tip_by_smoker scipy
      (Records (pre ++ RDict kvs :: post)) do_ttest
    = Float64.compare_avg_tip_by_smoker scipy (Records (pre ++ post)) do_ttest
    /\ exists r,
         Float64.compare_avg_tip_by_smoker scipy
           (Records (pre ++ RDict kvs :: post)) do_ttest = inr r.
Proof.
  intros P scipy do_ttest pre post kvs Hf.
  split; [|eexists; reflexivity].
  cbn [Float64.compare_avg_tip_by_smoker].
  rewrite !fold_left_app; cbn [fold_left].
  unfold Float64.rec_step at 2; rewrite Hf; reflexivity.
Qed.

Lemma C4_uncoercible_tip_skipped_witness :
  Float64.compare_avg_tip_by_smoker (P := unit) None
    (Records ([] ++ RDict [("tip", VStr "abc"); ("smoker", VStr "Yes")]
                 :: sample)) false
  = Float64.compare_avg_tip_by_smoker None (Records ([] ++ sample)) false
  /\ exists r,
       Float64.compare_avg_tip_by_smoker (P := unit) None
         (Records ([] ++ RDict [("tip", VStr "abc"); ("smoker", VStr "Yes")]
                      :: sample)) false = inr r.
Proof.
  apply (C4_uncoercible_tip_skipped unit None false [] sample
           [("tip", VStr "abc"); ("smoker", VStr "Yes")]).
  vm_compute; reflexivity.
Defined.

(** C5: a DataFrame lacking the [tip] or the [smoker] column makes the call
    raise [ValueError("DataFrame must contain 'tip' and 'smoker' columns")],
    whose message names (quoted) every required column that is missing. *)
Theorem C5_missing_column_error :
  forall (P : Type) (scipy : option (@ttest_fn P)) (do_ttest : bool)
         (df : table),
    ~ In "tip" (columns df) \/ ~ In "smoker" (columns df) ->
    compare_avg_tip_by_smoker scipy (DataFrame df) do_ttest
    = inl (ValueError df_error_msg)
    /\ forall c, (c = "tip" \/ c = "smoker") -> ~ In c (columns df) ->
         exists before after, df_error_msg = before ++ "'" ++ c ++ "'" ++ after.
Proof.
  intros P scipy do_ttest df Hmiss; split.
  - cbn [compare_avg_tip_by_smoker].
    destruct Hmiss as [H|H]; apply str_in_false in H; rewrite H;
      [reflexivity|].
    rewrite Bool.orb_true_r; reflexivity.
  - intros c [-> | ->] _.
    + exists "DataFrame must contain ", " and 'smoker' columns"; reflexivity.
    + exists "DataFrame must contain 'tip' and ", " columns"; reflexivity.
Qed.

Lemma C5_missing_column_error_witness :
  compare_avg_tip_by_smoker (P := unit) None
    (DataFrame {| columns := ["tip"]; rows := [] |}) false
  = inl (ValueError df_error_msg)
  /\ forall c, (c = "tip" \/ c = "smoker") -> ~ In c ["tip"] ->
       exists before after, df_error_msg = before ++ "'" ++ c ++ "'" ++ after.
Proof.
  apply (C5_missing_column_error unit None false
           {| columns := ["tip"]; rows := [] |}).
  right; simpl; intros [H|H]; [discriminate|exact H].
Defined.



(** C7: each iteration appends the record's tip to at most one group (never
    both) and to neither when the smoker flag normalises to None or the tip
    does not convert; hence n_smoker + n_non_smoker is at most the number of
    input records, with equality exactly when no record is skipped.  Stated
    on the floats the routine computes with ([Float64]), with [float()] as
    Python has it. *)
Theorem C7_at_most_one_group :
  forall (P : Type) (scipy : option (@Float64.ttest_fn P)) (records : input)
         (do_ttest : bool) (r : Float64.result),
    Float64.compare_avg_tip_by_smoker scipy records do_ttest = inr r ->
    (forall g rec,
       Float64.rec_step g rec = g
       \/ exists t, Float64.rec_step g rec = ((fst g ++ [t])%list, snd g)
                 \/ Float64.rec_step g rec = (fst g, (snd g ++ [t])%list))
    /\ (forall g rw,
       Float64.df_step g rw = g
       \/ exists t, Float64.df_step g rw = ((fst g ++ [t])%list, snd g)
                 \/ Float64.df_step g rw = (fst g, (snd g ++ [t])%list))
    /\ (forall g kvs,
          _to_bool_smoker (dict_get kvs "smoker" (dict_get kvs "Smoker" VNone))
            = None
          \/ float_of (dict_get kvs "tip" (dict_get kvs "Tip" VNone)) = None ->
          Float64.rec_step g (RDict kvs) = g)
    /\ (forall g rw,
          _to_bool_smoker (row_smoker rw) = None \/ float_of (row_tip rw) = None ->
          Float64.df_step g rw = g)
    /\ (Float64.n_smoker r + Float64.n_non_smoker r <= total_records records)%nat
    /\ ((Float64.n_smoker r + Float64.n_non_smoker r)%nat = total_records records
        <-> Forall (fun o => o <> None) (Float64.input_routes records)).
Proof.
  intros P scipy records do_ttest r H.
  apply f64_compare_inr in H; subst r.
  split; [intros g rec; rewrite f64_rec_step_route;
          apply f64_apply_route_at_most_one|].
  split; [intros g rw; rewrite f64_df_step_route;
          apply f64_apply_route_at_most_one|].
  split.
  { intros g kvs Hn; rewrite f64_rec_step_route; simpl; unfold Float64.route_of.
    destruct Hn as [Hn|Hn]; rewrite Hn; [destruct (float_of _)|]; reflexivity. }
  split.
  { intros g rw Hn; rewrite f64_df_step_route;
      unfold Float64.df_route, Float64.route_of.
    destruct Hn as [Hn|Hn]; rewrite Hn; [destruct (float_of _)|]; reflexivity. }
  rewrite f64_loop_groups_routes; simpl.
  assert (Htot : total_records records
                 = List.length (Float64.input_routes records))
    by (destruct records; simpl; rewrite length_map; reflexivity).
  rewrite Htot, <- f64_filter_is_skip_nil, <- length_zero_iff_nil.
  pose proof (f64_routed_lengths (Float64.input_routes records)).
  split; lia.
Qed.

Lemma C7_at_most_one_group_witness :
  Float64.compare_avg_tip_by_smoker (P := unit) None
    (Records (tip_rec (Qc_of_Z 1) "1.0" "Maybe" :: sample)) false
  = inr (Float64.summarize None false
           (Float64.loop_groups
              (Records (tip_rec (Qc_of_Z 1) "1.0" "Maybe" :: sample))))
  /\ (Float64.n_smoker (Float64.summarize (P := unit) None false
        (Float64.loop_groups
           (Records (tip_rec (Qc_of_Z 1) "1.0" "Maybe" :: sample))))
      + Float64.n_non_smoker (Float64.summarize (P := unit) None false
        (Float64.loop_groups
           (Records (tip_rec (Qc_of_Z 1) "1.0" "Maybe" :: sample))))
      <= total_records (Records (tip_rec (Qc_of_Z 1) "1.0" "Maybe" :: sample)))%nat.
Proof.
  split; [reflexivity|].
  apply (C7_at_most_one_group unit None
           (Records (tip_rec (Qc_of_Z 1) "1.0" "Maybe" :: sample)) false).
  reflexivity.
Defined.



(** C9 (as stated, refuted): the mean reported for a non-empty group need
    not lie between the smallest and the largest tip of the group.
    [float('nan')] succeeds, so a tip "nan" joins its group, and
    [statistics.mean([nan, 1.0])] is nan, which compares [<=] with no tip. *)
Lemma C9_nan_tip_counterexample :
  fst (Float64.loop_groups (Records nan_sample)) = [PNaN; PFin (Qc_of_Z 1)]
  /\ Float64.compare_avg_tip_by_smoker (P := unit) None (Records nan_sample) false
     = inr (Float64.summarize None false (Float64.loop_groups (Records nan_sample)))
  /\ Float64.avg_tip_smoker (Float64.summarize (P := unit) None false
       (Float64.loop_groups (Records nan_sample))) = Some PNaN
  /\ forall lo hi,
       ~ (flt_le lo PNaN = true /\ flt_le PNaN hi = true).
Proof.
  split; [vm_compute; f_equal; f_equal; qc_concrete|].
  split; [reflexivity|].
  split; [vm_compute; reflexivity|].
  intros lo hi [H _]; destruct lo as [|[|]|]; discriminate H.
Qed.

(** C9 (amended): when every tip of a non-empty group is a finite float,
    the mean reported for the group is a finite float that lies between
    the smallest and the largest tip of the group (for the float order
    [<=]); this holds for each of the two groups. *)
Theorem C9_finite_mean_within_min_max :
  forall (P : Type) (scipy : option (@Float64.ttest_fn P)) (records : input)
         (do_ttest : bool) (r : Float64.result),
    Float64.compare_avg_tip_by_smoker scipy records do_ttest = inr r ->
    (fst (Float64.loop_groups records) <> [] ->
     (forall x, In x (fst (Float64.loop_groups records)) -> is_finite x = true) ->
     exists m lo hi, Float64.avg_tip_smoker r = Some m
       /\ is_finite m = true
       /\ Float64.is_min_of lo (fst (Float64.loop_groups records))
       /\ Float64.is_max_of hi (fst (Float64.loop_groups records))
       /\ flt_le lo m = true /\ flt_le m hi = true)
    /\ (snd (Float64.loop_groups records) <> [] ->
     (forall x, In x (snd (Float64.loop_groups records)) -> is_finite x = true) ->
     exists m lo hi, Float64.avg_tip_non_smoker r = Some m
       /\ is_finite m = true
       /\ Float64.is_min_of lo (snd (Float64.loop_groups records))
       /\ Float64.is_max_of hi (snd (Float64.loop_groups records))
       /\ flt_le lo m = true /\ flt_le m hi = true).
Proof.
  intros P scipy records do_ttest r H.
  apply f64_compare_inr in H; subst r.
  rewrite f64_loop_groups_routes; simpl.
  split; intros Hne Hfin; apply f64_group_between; try assumption;
    intros q Hq; eapply f64_group_double; exact Hq.
Qed.

Lemma C9_finite_mean_within_min_max_witness :
  Float64.compare_avg_tip_by_smoker (P := unit) None (Records sample) false
  = inr (Float64.summarize None false (Float64.loop_groups (Records sample)))
  /\ exists m lo hi,
       Float64.avg_tip_smoker (Float64.summarize (P := unit) None false
                         (Float64.loop_groups (Records sample))) = Some m
       /\ is_finite m = true
       /\ Float64.is_min_of lo (fst (Float64.loop_groups (Records sample)))
       /\ Float64.is_max_of hi (fst (Float64.loop_groups (Records sample)))
       /\ flt_le lo m = true /\ flt_le m hi = true.
Proof.
  split; [reflexivity|].
  apply (C9_finite_mean_within_min_max unit None (Records sample) false);
    [reflexivity|vm_compute; discriminate|].
  intros x Hx; vm_compute in Hx.
  destruct Hx as [<-|[<-|[]]]; reflexivity.
Defined.

(** C10: a smoker value that is neither None, a bool nor a string is
    classified through its [str()] form, stripped and lower-cased, against
    the two token tuples (so the int 1 is a smoker and the int 0 a
    non-smoker); None and every value whose form is not recognised give
    None, and such a record joins neither group. *)
Theorem C10_other_values_via_str :
  (forall v : pyval,
     v <> VNone -> (forall b, v <> VBool b) -> (forall s, v <> VStr s) ->
     (_to_bool_smoker v = Some true <-> In (lower (strip (py_str v))) yes_tokens)
     /\ (_to_bool_smoker v = Some false <-> In (lower (strip (py_str v))) no_tokens)
     /\ (_to_bool_smoker v = None
         <-> ~ In (lower (strip (py_str v))) yes_tokens
             /\ ~ In (lower (strip (py_str v))) no_tokens))
  /\ _to_bool_smoker (VInt 1) = Some true
  /\ _to_bool_smoker (VInt 0) = Some false
  /\ _to_bool_smoker VNone = None
  /\ (forall g kvs,
        _to_bool_smoker (dict_get kvs "smoker" (dict_get kvs "Smoker" VNone))
          = None ->
        rec_step g (RDict kvs) = g)
  /\ (forall g rw, _to_bool_smoker (row_smoker rw) = None -> df_step g rw = g).
Proof.
  split.
  { intros v Hn Hb Hs.
    destruct v as [| b | z | q t | s | t f];
      [congruence | exfalso; apply (Hb b); reflexivity | | |
       exfalso; apply (Hs s); reflexivity | ];
      apply token_classification. }
  split; [reflexivity|]; split; [reflexivity|]; split; [reflexivity|].
  split.
  - intros g kvs Hn; rewrite rec_step_route; simpl; unfold route_of.
    rewrite Hn; destruct (py_float _); reflexivity.
  - intros g rw Hn; rewrite df_step_route; unfold df_route, route_of.
    rewrite Hn; destruct (py_float _); reflexivity.
Qed.

Lemma C10_other_values_via_str_witness :
  _to_bool_smoker (VInt 1) = Some true
  <-> In (lower (strip (py_str (VInt 1)))) yes_tokens.
Proof.
  destruct C10_other_values_via_str as [H _].
  apply (H (VInt 1)); [discriminate | intros b; discriminate | intros s; discriminate].
Defined.

(** * Further properties of [analyze_tips.py] *)

(** ** Normalisation of the smoker flag: case and surrounding blanks *)

Lemma lower_char_idem (c : ascii) : lower_char (lower_char c) = lower_char c.
Proof.
  destruct c as [b0 b1 b2 b3 b4 b5 b6 b7];
    destruct b0, b1, b2, b3, b4, b5, b6, b7; reflexivity.
Qed.

Lemma is_space_lower_char (c : ascii) : is_space (lower_char c) = is_space c.
Proof.
  destruct c as [b0 b1 b2 b3 b4 b5 b6 b7];
    destruct b0, b1, b2, b3, b4, b5, b6, b7; reflexivity.
Qed.

Lemma drop_space_map_lower (l : list ascii) :
  drop_space (map lower_char l) = map lower_char (drop_space l).
Proof.
  induction l as [|c l IH]; [reflexivity|].
  cbn [map drop_space]; rewrite is_space_lower_char.
  destruct (is_space c); [exact IH|reflexivity].
Qed.

Lemma strip_list_map_lower (l : list ascii) :
  rev (drop_space (rev (drop_space (map lower_char l))))
  = map lower_char (rev (drop_space (rev (drop_space l)))).
Proof.
  rewrite drop_space_map_lower, <- map_rev, drop_space_map_lower, map_rev.
  reflexivity.
Qed.

Lemma lower_strip_lower (s : string) : lower (strip (lower s)) = lower (strip s).
Proof.
  unfold lower, strip.
  rewrite !list_ascii_of_string_of_list_ascii, strip_list_map_lower,
    map_map.
  f_equal; apply map_ext; apply lower_char_idem.
Qed.

Lemma list_ascii_of_string_app (a b : string) :
  list_ascii_of_string (a ++ b) = (list_ascii_of_string a ++ list_ascii_of_string b)%list.
Proof. induction a as [|c a IH]; simpl; [reflexivity|]; rewrite IH; reflexivity. Qed.

Lemma drop_space_app (l m : list ascii) :
  drop_space (l ++ m) = match drop_space l with
                        | [] => drop_space m
                        | d => (d ++ m)%list
                        end.
Proof.
  induction l as [|c l IH]; [reflexivity|].
  cbn [app drop_space]; destruct (is_space c); [exact IH|reflexivity].
Qed.

Lemma drop_space_all (l : list ascii) :
  forallb is_space l = true -> drop_space l = [].
Proof.
  induction l as [|c l IH]; [reflexivity|].
  cbn [forallb drop_space]; intros H; apply andb_prop in H as [Hc Hl].
  rewrite Hc; apply IH, Hl.
Qed.

Lemma drop_space_blank_prefix (ws m : list ascii) :
  forallb is_space ws = true -> drop_space (ws ++ m) = drop_space m.
Proof. intros H; rewrite drop_space_app, drop_space_all by exact H; reflexivity. Qed.

Lemma drop_space_head (l : list ascii) :
  match drop_space l with [] => True | c :: _ => is_space c = false end.
Proof.
  induction l as [|c l IH]; [exact I|].
  cbn [drop_space]; destruct (is_space c) eqn:E; [exact IH|exact E].
Qed.

Lemma strip_list_blanks (ws1 l ws2 : list ascii) :
  forallb is_space ws1 = true -> forallb is_space ws2 = true ->
  rev (drop_space (rev (drop_space (ws1 ++ l ++ ws2))))
  = rev (drop_space (rev (drop_space l))).
Proof.
  intros H1 H2.
  rewrite drop_space_blank_prefix by exact H1.
  rewrite drop_space_app.
  destruct (drop_space l) as [|c d] eqn:E.
  - rewrite (drop_space_all ws2 H2); reflexivity.
  - rewrite rev_app_distr, drop_space_blank_prefix; [reflexivity|].
    rewrite forallb_forall in *; intros x Hx; apply H2, in_rev, Hx.
Qed.

Theorem to_bool_smoker_case_insensitive :
  forall s1 s2 : string,
    lower s1 = lower s2 ->
    _to_bool_smoker (VStr s1) = _to_bool_smoker (VStr s2).
Proof.
  intros s1 s2 H; cbn [_to_bool_smoker py_str].
  rewrite <- (lower_strip_lower s1), <- (lower_strip_lower s2), H.
  reflexivity.
Qed.

Lemma to_bool_smoker_case_insensitive_witness :
  lower "YeS" = lower "yEs" /\ _to_bool_smoker (VStr "YeS") = _to_bool_smoker (VStr "yEs").
Proof.
  split; [reflexivity|]. apply to_bool_smoker_case_insensitive; reflexivity.
Defined.

Theorem to_bool_smoker_blank_insensitive :
  forall ws1 s ws2 : string,
    forallb is_space (list_ascii_of_string ws1) = true ->
    forallb is_space (list_ascii_of_string ws2) = true ->
    _to_bool_smoker (VStr (ws1 ++ s ++ ws2)) = _to_bool_smoker (VStr s).
Proof.
  intros ws1 s ws2 H1 H2; cbn [_to_bool_smoker py_str].
  unfold strip; rewrite !list_ascii_of_string_app, strip_list_blanks by assumption.
  reflexivity.
Qed.

Lemma to_bool_smoker_blank_insensitive_witness :
  _to_bool_smoker (VStr (" " ++ "n" ++ String (ascii_of_nat 9) "  "))
  = _to_bool_smoker (VStr "n").
Proof. apply to_bool_smoker_blank_insensitive; reflexivity. Defined.

(** ** The capitalised keys *)

Theorem capitalised_keys_fallback_only :
  forall (g : groups) (kvs : list (string * pyval)) (v t : pyval),
    rec_step g (RDict (("smoker", VNone) :: kvs)) = g
    /\ rec_step g (RDict [("Smoker", v); ("Tip", t)])
       = rec_step g (RDict [("smoker", v); ("tip", t)]).
Proof.
  intros g kvs v t; split.
  - cbn [rec_step dict_get]; rewrite String.eqb_refl.
    destruct (py_float _); [destruct g|]; reflexivity.
  - reflexivity.
Qed.

(** ** What the test flag and scipy change *)

Theorem ttest_only_affects_pvalue :
  forall (P1 P2 : Type) (scipy1 : option (@ttest_fn P1))
         (scipy2 : option (@ttest_fn P2)) (records : input) (d1 d2 : bool),
    match compare_avg_tip_by_smoker scipy1 records d1,
          compare_avg_tip_by_smoker scipy2 records d2 with
    | inr r1, inr r2 =>
        n_smoker r1 = n_smoker r2 /\ n_non_smoker r1 = n_non_smoker r2
        /\ avg_tip_smoker r1 = avg_tip_smoker r2
        /\ avg_tip_non_smoker r1 = avg_tip_non_smoker r2
        /\ difference r1 = difference r2
        /\ (ttest_pvalue r1 = None <-> d1 = false)
    | inl e1, inl e2 => e1 = e2
    | _, _ => False
    end.
Proof.
  intros P1 P2 scipy1 scipy2 records d1 d2.
  destruct records as [df|recs]; cbn [compare_avg_tip_by_smoker].
  - destruct (_ || _); [reflexivity|].
    destruct (fold_left df_step (rows df) ([], [])) as [ts tn]; simpl.
    repeat split; destruct d1; simpl; congruence.
  - destruct (fold_left rec_step recs ([], [])) as [ts tn]; simpl.
    repeat split; destruct d1; simpl; congruence.
Qed.

Theorem empty_input_result :
  forall (P : Type) (scipy : option (@ttest_fn P)) (do_ttest : bool)
         (cols : list string),
    let expected :=
      {| n_smoker := 0; n_non_smoker := 0;
         avg_tip_smoker := None; avg_tip_non_smoker := None;
         difference := None;
         ttest_pvalue := if do_ttest then Some None else None |} in
    compare_avg_tip_by_smoker scipy (Records []) do_ttest = inr expected
    /\ (In "tip" cols -> In "smoker" cols ->
        compare_avg_tip_by_smoker scipy
          (DataFrame {| columns := cols; rows := [] |}) do_ttest
        = inr expected).
Proof.
  intros P scipy do_ttest cols expected; split.
  - destruct do_ttest, scipy; reflexivity.
  - intros Ht Hs; apply str_in_In in Ht; apply str_in_In in Hs.
    cbn [compare_avg_tip_by_smoker columns]; rewrite Ht, Hs.
    destruct do_ttest, scipy; reflexivity.
Qed.

Lemma empty_input_result_witness :
  compare_avg_tip_by_smoker (P := unit) None
    (DataFrame {| columns := ["tip"; "smoker"]; rows := [] |}) true
  = inr {| n_smoker := 0; n_non_smoker := 0;
           avg_tip_smoker := None; avg_tip_non_smoker := None;
           difference := None; ttest_pvalue := Some None |}.
Proof.
  apply (empty_input_result unit None true ["tip"; "smoker"]); simpl; auto.
Defined.
